(** * Responsive sidebar layout: NavItem, NavHeader, NavBar, Header, Layout

    A shallow embedding of the React components of
    [content/post/Responsive-animated-sidebar-layout-react-tailwind.md]
    (their final versions in the article) together with the part of the
    Tailwind stylesheet and of the browser's behaviour that the components
    rely on: class lists, the [lg:] breakpoint variant, the cascade, flex
    ordering, [display: none] and click dispatch. *)

From Stdlib Require Import Bool List String Ascii NArith Arith Lia.
From Stdlib Require DecimalString DecimalNat.
Import ListNotations.
Open Scope string_scope.
Set Implicit Arguments.
Set Warnings "-register-all".

(** ** JavaScript expressions used inside the JSX *)
Module Js.

(** [`${b && s}`]: the operator [&&] yields [s] when [b] is true and the
    boolean [false] otherwise, which the template literal prints as the
    five letters [false]. *)
Definition and_str (b : bool) (s : string) : string :=
  if b then s else "false".

(** [`${i}`] for an array index. *)
Definition index_str (i : nat) : string :=
  DecimalString.NilEmpty.string_of_uint (Nat.to_uint i).

(** A destructured parameter with a default, [{ x = d }]: the default is
    taken exactly when the property is [undefined] (here [None]). *)
Definition param_default {A : Type} (d : A) (x : option A) : A :=
  match x with
  | Some v => v
  | None => d
  end.

(** [xs.map((x, index) => f x index)] *)
Fixpoint map_index_from {A B : Type} (f : A -> nat -> B) (i : nat) (xs : list A)
  : list B :=
  match xs with
  | [] => []
  | x :: rest => f x i :: map_index_from f (S i) rest
  end.

Definition map_index {A B : Type} (f : A -> nat -> B) (xs : list A) : list B :=
  map_index_from f 0 xs.

End Js.

(** ** React elements *)
Module React.

Section Elements.
(** [H] is the type of the event handlers attached with [onClick]. *)
Variable H : Type.

(** What a component returns: a host element with its class attribute,
    its click handler and its children; the element of another component,
    kept together with its [key] and with what that component returns; a
    string; an icon of react-icons; or [false], which React leaves out. *)
Inductive Node : Type :=
| Elem (tag : string) (className : string) (onClick : option H)
       (children : list Node)
| Comp (name : string) (key : option string) (rendered : Node)
| Text (s : string)
| Icon (name : string)
| JsFalse.

(** Every node of a tree, the tree itself first, in document order. *)
Fixpoint subnodes (n : Node) : list Node :=
  n :: match n with
       | Elem _ _ _ kids => flat_map subnodes kids
       | Comp _ _ r => subnodes r
       | Text _ | Icon _ | JsFalse => []
       end.

(** The host element a node renders to, through component boundaries. *)
Fixpoint root_class (n : Node) : option string :=
  match n with
  | Elem _ cls _ _ => Some cls
  | Comp _ _ r => root_class r
  | Text _ | Icon _ | JsFalse => None
  end.

(** The handlers attached anywhere in a tree. *)
Fixpoint handlers (n : Node) : list H :=
  match n with
  | Elem _ _ h kids =>
      match h with
      | Some f => [f]
      | None => []
      end ++ flat_map handlers kids
  | Comp _ _ r => handlers r
  | Text _ | Icon _ | JsFalse => []
  end.

Definition is_component (name : string) (n : Node) : bool :=
  match n with
  | Comp c _ _ => String.eqb c name
  | _ => false
  end.

Definition component_key (n : Node) : option string :=
  match n with
  | Comp _ k _ => k
  | _ => None
  end.

Definition component_output (n : Node) : option Node :=
  match n with
  | Comp _ _ r => Some r
  | _ => None
  end.

Definition children_of (n : Node) : list Node :=
  match n with
  | Elem _ _ _ kids => kids
  | _ => []
  end.

End Elements.

Arguments Text {H} s.
Arguments Icon {H} name.
Arguments JsFalse {H}.

(** [{cond && <element/>}] as a JSX child. *)
Definition and_node {H : Type} (cond : bool) (n : Node H) : Node H :=
  if cond then n else JsFalse.

End React.

Import React.

(** ** The components *)

(** The one piece of state, [isMinimized]: [false] is the expanded sidebar,
    [true] the minimized one. *)
Definition SidebarState := bool.
Definition EXPANDED : SidebarState := false.
Definition MINIMIZED : SidebarState := true.

(** What [setIsMinimized] is given: a function from the current state to
    the next one. *)
Definition Updater := SidebarState -> SidebarState.

(** src/constants/routes.js: an entry has a [text] and an [icon]; either
    property may be missing ([None] is JavaScript's [undefined]).  Icons are
    components of react-icons, referred to by name. *)
Record Route := { text : option string; icon : option string }.

(** The array of src/constants/routes.js (the article's listing leaves out
    the opening bracket of the array literal). *)
Definition routes : list Route :=
  [ {| text := Some "Inbox"; icon := Some "HiInbox" |};
    {| text := Some "Projects"; icon := Some "HiRectangleGroup" |};
    {| text := Some "Recruiting"; icon := Some "BsPeopleFill" |};
    {| text := Some "Learning"; icon := Some "HiBookOpen" |} ].

(** The [icon] property of a route as the prop passed to NavItem. *)
Definition route_icon (r : Route) : option (Node Updater) :=
  option_map (fun name => Icon name) (icon r).

(** The class attribute of the paragraph that holds a NavItem's text. *)
Definition label_className (isMinimized : bool) : string :=
  "text-sm lg:text-lg lg:ml-4 text-gray-200 "
  ++ Js.and_str isMinimized "lg:hidden".

(** The paragraph that holds a NavItem's text. *)
Definition label (text : string) (isMinimized : bool) : Node Updater :=
  Elem "p" (label_className isMinimized) None [ Text text ].

(** The element that holds a NavItem's icon. *)
Definition icon_slot (icon : Node Updater) : Node Updater :=
  Elem "div" "flex justify-center items-center text-4xl text-gray-400 group-hover:text-gray-100" None
    [ icon ].

(** src/components/NavItem.js *)
Definition NavItem (text : option string) (icon : option (Node Updater))
    (isMinimized : bool) : Node Updater :=
  let text := Js.param_default "Default" text in
  let icon := Js.param_default (Text "") icon in
  Elem "div" "group flex-grow lg:flex-grow-0 flex flex-col lg:flex-row items-center p-4 cursor-pointer rounded-lg hover:bg-gray-600" None
    [ icon_slot icon;
      label text isMinimized ].

(** The block NavHeader renders only while expanded. *)
Definition branding : Node Updater :=
  Elem "div" "flex-shrink-0 flex items-center mr-12" None
    [ Elem "div" "flex items-center justify-center w-12 h-12 rounded-lg bg-gray-600 text-2xl" None
        [ Text "J" ];
      Elem "div" "flex flex-col p-2" None
        [ Elem "h6" "text-lg text-gray-200" None [ Text "The Junto" ];
          Elem "p" "text-sm text-gray-300" None [ Text "Tailwind Demo" ] ] ].

(** The class attribute of the element around the chevron. *)
Definition control_className (isMinimized : bool) : string :=
  "text-gray-400 text-3xl cursor-pointer hover:text-gray-300 transition duration-200 "
  ++ Js.and_str isMinimized "rotate-180".

(** The element around the chevron; [onClick={() => onToggle()}]. *)
Definition control (onToggle : Updater) (isMinimized : bool) : Node Updater :=
  Elem "div" (control_className isMinimized) (Some onToggle)
    [ Icon "HiChevronDoubleLeft" ].

Definition NavHeader_className : string :=
  "hidden lg:flex items-center justify-between p-4 lg:h-20".

(** src/components/NavHeader.js *)
Definition NavHeader (onToggle : Updater) (isMinimized : bool) : Node Updater :=
  Elem "div" NavHeader_className None
    [ and_node (negb isMinimized) branding;
      control onToggle isMinimized ].

(** [(current) => !current], the argument of [setIsMinimized] in NavBar. *)
Definition toggle : Updater := fun current => negb current.

(** The initial value given to [useState] in NavBar. *)
Definition initial_state : SidebarState := false.

(** The class attribute of NavBar's [nav], a template literal over several
    lines. *)
Definition NavBar_className (isMinimized : bool) : string :=
  "
			bg-gray-900 text-gray-100

      lg:flex-shrink-0

      flex flex-row justify-around
			lg:flex-col lg:justify-start
      w-full " ++ (if isMinimized then "lg:w-[5.5rem]" else "lg:w-[18rem]") ++ "

      lg:p-2
      lg:overflow-y-auto
      lg:transition-[width] lg:duration-200
      ".

(** src/components/NavBar.js, for the array [rs] it imports and the current
    value of its state: the last listing of the article, with the props of
    NavHeader and the body of the [map] as the earlier listings give them. *)
Definition NavBar (rs : list Route) (isMinimized : bool) : Node Updater :=
  Elem "nav" (NavBar_className isMinimized) None
    (Comp "NavHeader" None (NavHeader toggle isMinimized)
     :: Js.map_index
          (fun route index =>
             Comp "NavItem" (Some ("navitem-" ++ Js.index_str index))
               (NavItem (text route) (route_icon route) isMinimized))
          rs).

(** src/components/Header.js *)
Definition Header : Node Updater :=
  Elem "div" "w-full p-4" None
    [ Elem "h1" "text-lg mb-4" None [ Text "The Junto" ];
      Elem "hr" "" None [] ].

Definition Layout_className : string :=
  "
      h-screen w-screen overflow-hidden
      flex flex-col-reverse lg:flex-row
      lg:overflow-y-auto lg:overflow-x-hidden
      ".

(** The region of Layout that holds the header and the page's content. *)
Definition content_region (children : list (Node Updater)) : Node Updater :=
  Elem "div" "flex flex-col overflow-y-auto" None
    (Comp "Header" None Header :: children).

(** The NavBar element inside Layout. *)
Definition navigation_region (rs : list Route) (isMinimized : bool)
  : Node Updater :=
  Comp "NavBar" None (NavBar rs isMinimized).

(** src/components/Layout.js; [isMinimized] is the state of the NavBar it
    mounts. *)
Definition Layout (rs : list Route) (isMinimized : bool)
    (children : list (Node Updater)) : Node Updater :=
  Elem "div" Layout_className None
    [ navigation_region rs isMinimized;
      content_region children ].

(** ** The stylesheet

    Modelled from the spec: the stylesheet Tailwind generates is not part of
    the repository; the spec calls it the external CSS engine.  The table
    below holds the utilities the components name, with the declarations the
    article gives for them ([h-20] is 5rem, [rotate-180] is
    [transform: rotate(180deg)], [h-screen] and [w-screen] are 100vh and
    100vw, [flex-shrink-0] is [flex-shrink: 0]) and Tailwind's defaults for
    the rest; the gray palette is the one of tailwind.config.js. *)
Module Tailwind.

Inductive LayoutMode : Type := Narrow | Wide.

(** The [lg] breakpoint: [@media (min-width: 1024px)]. *)
Definition lg_min_width : N := 1024.

Definition layout_mode (viewport_width : N) : LayoutMode :=
  if (lg_min_width <=? viewport_width)%N then Wide else Narrow.

(** *** Class attributes *)

(** ASCII whitespace separates the classes of a class attribute. *)
Definition is_space (c : ascii) : bool :=
  match c with
  | " "%char | "009"%char | "010"%char | "012"%char | "013"%char => true
  | _ => false
  end.

Definition flush (word : string) : list string :=
  match word with
  | EmptyString => []
  | _ => [word]
  end.

Fixpoint split_classes (word : string) (s : string) : list string :=
  match s with
  | EmptyString => flush word
  | String c rest =>
      if is_space c then flush word ++ split_classes "" rest
      else split_classes (word ++ String c "") rest
  end.

Definition class_list (className : string) : list string :=
  split_classes "" className.

Definition has_class (c : string) (className : string) : bool :=
  existsb (String.eqb c) (class_list className).


(** *** Variants *)

Inductive Variant : Type := Base | Lg | Hover | GroupHover.

Fixpoint strip_prefix (p s : string) : option string :=
  match p with
  | EmptyString => Some s
  | String a p' =>
      match s with
      | EmptyString => None
      | String b s' => if Ascii.eqb a b then strip_prefix p' s' else None
      end
  end.

Definition parse_class (c : string) : Variant * string :=
  match strip_prefix "lg:" c with
  | Some u => (Lg, u)
  | None =>
      match strip_prefix "hover:" c with
      | Some u => (Hover, u)
      | None =>
          match strip_prefix "group-hover:" c with
          | Some u => (GroupHover, u)
          | None => (Base, c)
          end
      end
  end.

(** *** Utilities *)

Definition Decl : Type := string * string.

(** theme.extend.colors.gray of tailwind.config.js *)
Definition gray : list (string * string) :=
  [ ("100", "#f1f1f5"); ("200", "#b6bbc9"); ("300", "#6c7793");
    ("400", "#4c5366"); ("600", "#2b303b"); ("900", "#1d1f24") ].

Fixpoint assoc {A : Type} (k : string) (l : list (string * A)) : option A :=
  match l with
  | [] => None
  | (k', v) :: rest => if String.eqb k k' then Some v else assoc k rest
  end.

Definition transition_defaults : list Decl :=
  [ ("transition-timing-function", "cubic-bezier(0.4, 0, 0.2, 1)");
    ("transition-duration", "150ms") ].

Definition static_utilities : list (string * list Decl) :=
  [ ("flex", [("display", "flex")]);
    ("hidden", [("display", "none")]);
    ("flex-row", [("flex-direction", "row")]);
    ("flex-col", [("flex-direction", "column")]);
    ("flex-col-reverse", [("flex-direction", "column-reverse")]);
    ("flex-grow", [("flex-grow", "1")]);
    ("flex-grow-0", [("flex-grow", "0")]);
    ("flex-shrink-0", [("flex-shrink", "0")]);
    ("justify-start", [("justify-content", "flex-start")]);
    ("justify-center", [("justify-content", "center")]);
    ("justify-between", [("justify-content", "space-between")]);
    ("justify-around", [("justify-content", "space-around")]);
    ("items-center", [("align-items", "center")]);
    ("w-full", [("width", "100%")]);
    ("w-screen", [("width", "100vw")]);
    ("w-auto", [("width", "auto")]);
    ("w-12", [("width", "3rem")]);
    ("h-screen", [("height", "100vh")]);
    ("h-12", [("height", "3rem")]);
    ("h-20", [("height", "5rem")]);
    ("p-2", [("padding", "0.5rem")]);
    ("p-4", [("padding", "1rem")]);
    ("ml-4", [("margin-left", "1rem")]);
    ("mr-12", [("margin-right", "3rem")]);
    ("mb-4", [("margin-bottom", "1rem")]);
    ("overflow-hidden", [("overflow", "hidden")]);
    ("overflow-y-auto", [("overflow-y", "auto")]);
    ("overflow-x-hidden", [("overflow-x", "hidden")]);
    ("cursor-pointer", [("cursor", "pointer")]);
    ("rounded-lg", [("border-radius", "0.5rem")]);
    ("text-sm", [("font-size", "0.875rem"); ("line-height", "1.25rem")]);
    ("text-lg", [("font-size", "1.125rem"); ("line-height", "1.75rem")]);
    ("text-2xl", [("font-size", "1.5rem"); ("line-height", "2rem")]);
    ("text-3xl", [("font-size", "1.875rem"); ("line-height", "2.25rem")]);
    ("text-4xl", [("font-size", "2.25rem"); ("line-height", "2.5rem")]);
    ("rotate-180", [("transform", "rotate(180deg)")]);
    ("transition",
      ("transition-property",
       "color, background-color, border-color, text-decoration-color, fill, stroke, opacity, box-shadow, transform, filter, backdrop-filter")
      :: transition_defaults);
    ("duration-200", [("transition-duration", "200ms")]) ].

(** The text between the brackets of an arbitrary value, [18rem] in
    [[18rem]]. *)
Fixpoint until_bracket (s : string) : option string :=
  match s with
  | EmptyString => None
  | String c rest =>
      match rest with
      | EmptyString => if Ascii.eqb c "]" then Some "" else None
      | _ => option_map (String c) (until_bracket rest)
      end
  end.

Definition arbitrary (p : string) (u : string) : option string :=
  match strip_prefix (p ++ "[") u with
  | Some rest => until_bracket rest
  | None => None
  end.

Definition themed (p : string) (u : string) : option string :=
  match strip_prefix p u with
  | Some shade => assoc shade gray
  | None => None
  end.

(** The declarations of one utility; a class the stylesheet has no rule
    for declares nothing. *)
Definition utility (u : string) : list Decl :=
  match assoc u static_utilities with
  | Some ds => ds
  | None =>
      match arbitrary "w-" u with
      | Some v => [("width", v)]
      | None =>
          match arbitrary "transition-" u with
          | Some v => ("transition-property", v) :: transition_defaults
          | None =>
              match themed "text-gray-" u with
              | Some c => [("color", c)]
              | None =>
                  match themed "bg-gray-" u with
                  | Some c => [("background-color", c)]
                  | None => []
                  end
              end
          end
      end
  end.

(** *** The cascade *)

(** The rules of a variant apply under its condition.  The pointer is at
    rest: the hover variants do not apply. *)
Definition applies (mode : LayoutMode) (v : Variant) : bool :=
  match v, mode with
  | Base, _ => true
  | Lg, Wide => true
  | Lg, Narrow => false
  | Hover, _ => false
  | GroupHover, _ => false
  end.

Definition variant_eqb (a b : Variant) : bool :=
  match a, b with
  | Base, Base | Lg, Lg | Hover, Hover | GroupHover, GroupHover => true
  | _, _ => false
  end.

(** The declarations the classes of one variant contribute. *)
Definition layer (v : Variant) (className : string) : list Decl :=
  flat_map
    (fun c =>
       let '(v', u) := parse_class c in
       if variant_eqb v v' then utility u else [])
    (class_list className).

(** The declarations in force, weakest first: the rules of the [lg]
    variant stand after the plain ones in the stylesheet and win over
    them.  Within one variant the declarations are kept in the order of the
    class attribute, where the browser goes by the order of the rules in
    the stylesheet: the two agree on the value of every property when the
    class attribute is [conflict_free] (below), and nothing is read off
    this list for a property that two classes of one variant declare,
    except [transition-duration] (see [style_get]). *)
Definition computed (mode : LayoutMode) (className : string) : list Decl :=
  layer Base className
  ++ (if applies mode Lg then layer Lg className else []).

(** The value of a property: the last declaration for it wins.  Within one
    variant the components never name two utilities for one property, but
    for [duration-200] after [transition], which the stylesheet orders the
    same way. *)
Fixpoint style_get (prop : string) (ds : list Decl) : option string :=
  match ds with
  | [] => None
  | (p, v) :: rest =>
      match style_get prop rest with
      | Some w => Some w
      | None => if String.eqb prop p then Some v else None
      end
  end.

Definition property (mode : LayoutMode) (prop : string) (className : string)
  : option string :=
  style_get prop (computed mode className).

(** The properties declared more than once in a list of declarations. *)
Fixpoint repeated (props : list string) : list string :=
  match props with
  | [] => []
  | p :: rest =>
      (if existsb (String.eqb p) rest then [p] else []) ++ repeated rest
  end.

(** The properties that two classes of one variant both declare: for these
    the order of the rules in the stylesheet decides. *)
Definition conflicts (className : string) : list string :=
  repeated (map fst (layer Base className))
  ++ repeated (map fst (layer Lg className)).


Definition is_hidden (mode : LayoutMode) (className : string) : bool :=
  match property mode "display" className with
  | Some d => String.eqb d "none"
  | None => false
  end.

Definition is_flex (mode : LayoutMode) (className : string) : bool :=
  match property mode "display" className with
  | Some d => String.eqb d "flex"
  | None => false
  end.

(** A flex container whose main axis runs backwards. *)
Definition is_reversed (mode : LayoutMode) (className : string) : bool :=
  is_flex mode className
  && match property mode "flex-direction" className with
     | Some d => String.eqb d "column-reverse" || String.eqb d "row-reverse"
     | None => false
     end.

End Tailwind.

Import Tailwind.

(** ** What the browser does with a tree *)
Module Browser.

(** A laid-out element with its declarations in force and its children in
    the order they are placed along the main axis (top to bottom in a
    column, left to right in a row). *)
Inductive Box : Type :=
| BoxElem (tag : string) (style : list Decl) (kids : list Box)
| BoxText (s : string)
| BoxIcon (name : string).

Section Trees.
Variable H : Type.

(** The boxes of a tree under a layout mode.  An element with
    [display: none] and everything below it generate no box, [false]
    and the empty string render nothing, and a reversed flex container
    places its children last to first. *)
Fixpoint layout (mode : LayoutMode) (n : Node H) : list Box :=
  match n with
  | Elem tag cls _ kids =>
      if is_hidden mode cls then []
      else
        let boxes := flat_map (layout mode) kids in
        [ BoxElem tag (computed mode cls)
            (if is_reversed mode cls then rev boxes else boxes) ]
  | Comp _ _ r => layout mode r
  | Text s =>
      match s with
      | EmptyString => []
      | _ => [ BoxText s ]
      end
  | Icon name => [ BoxIcon name ]
  | JsFalse => []
  end.

(** One entry per place the pointer can activate: the handlers a click
    there runs, the target's own first and then those of its ancestors
    (the event bubbles).  Only what has a box can be clicked; a click on
    text lands on the element around it. *)
Fixpoint click_paths (mode : LayoutMode) (above : list H) (n : Node H)
  : list (list H) :=
  match n with
  | Elem _ cls h kids =>
      if is_hidden mode cls then []
      else
        let here := match h with
                    | Some f => f :: above
                    | None => above
                    end in
        here :: flat_map (click_paths mode here) kids
  | Comp _ _ r => click_paths mode above r
  | Icon _ => [ above ]
  | Text _ | JsFalse => []
  end.

End Trees.

Definition box_kids (b : Box) : list Box :=
  match b with
  | BoxElem _ _ kids => kids
  | _ => []
  end.

Definition box_style (b : Box) : list Decl :=
  match b with
  | BoxElem _ style _ => style
  | _ => []
  end.

(** The icons a box shows, in placement order. *)
Fixpoint box_icons (b : Box) : list string :=
  match b with
  | BoxElem _ _ kids => flat_map box_icons kids
  | BoxText _ => []
  | BoxIcon name => [name]
  end.

(** The strings that make a text box: the empty string makes none. *)
Definition nonempty (texts : list string) : list string :=
  filter (fun t => negb (String.eqb t "")) texts.

(** The text a box shows, in placement order. *)
Fixpoint box_text (b : Box) : list string :=
  match b with
  | BoxElem _ _ kids => flat_map box_text kids
  | BoxText s => [s]
  | BoxIcon _ => []
  end.

End Browser.

Import Browser.

(** ** The life of the page *)
Module App.

(** The viewport and the NavBar instance: [None] while NavBar is not
    mounted, otherwise the value of its [isMinimized]. *)
Record Page := { viewport_width : N; sidebar : option SidebarState }.

Inductive Event : Type :=
| Mount
| Unmount
| Resize (width : N)
| Click (target : nat).

(** The updaters queued by one click run in order. *)
Definition fire (hs : list Updater) (s : SidebarState) : SidebarState :=
  fold_left (fun current h => h current) hs s.

Section WithRoutes.
Variable rs : list Route.

(** A click on the [target]-th clickable place of what NavBar shows.
    [setIsMinimized] is in scope in NavBar only, so these are the clicks
    that can reach the state. *)
Definition click (mode : LayoutMode) (target : nat) (s : SidebarState)
  : SidebarState :=
  match nth_error (click_paths mode [] (NavBar rs s)) target with
  | Some hs => fire hs s
  | None => s
  end.

(** Mounting runs [useState(false)] afresh; unmounting drops the state;
    resizing only re-evaluates the media queries. *)
Definition step (p : Page) (e : Event) : Page :=
  match e with
  | Mount => {| viewport_width := viewport_width p;
                sidebar := Some initial_state |}
  | Unmount => {| viewport_width := viewport_width p; sidebar := None |}
  | Resize w => {| viewport_width := w; sidebar := sidebar p |}
  | Click target =>
      {| viewport_width := viewport_width p;
         sidebar :=
           option_map (click (layout_mode (viewport_width p)) target)
             (sidebar p) |}
  end.

Definition run (p : Page) (es : list Event) : Page :=
  fold_left step es p.

(** Where the control is among the clickable places of the wide layout:
    after the [nav], the header's root and, while expanded, the five
    elements of the branding block. *)
Definition control_target (s : SidebarState) : nat :=
  if s then 2 else 7.

(** One activation of the control under the wide layout. *)
Definition press_control (s : SidebarState) : SidebarState :=
  click Wide (control_target s) s.

(** What the page shows of NavBar. *)
Definition view (p : Page) : list Box :=
  match sidebar p with
  | Some s => layout (layout_mode (viewport_width p)) (NavBar rs s)
  | None => []
  end.

End WithRoutes.

(** The events that can happen while the viewport stays below the [lg]
    breakpoint with NavBar mounted: clicks, and resizes that stay below
    it. *)
Definition narrow_event (e : Event) : bool :=
  match e with
  | Click _ => true
  | Resize width => (width <? lg_min_width)%N
  | Mount | Unmount => false
  end.

End App.

(** ** Earlier listings of the article *)

(** src/components/NavItem.js before it took [isMinimized] (the listing
    with the hover states). *)
Definition NavItem_stateless (text : option string)
    (icon : option (Node Updater)) : Node Updater :=
  let text := Js.param_default "Default" text in
  let icon := Js.param_default (Text "") icon in
  Elem "div" "group flex-grow lg:flex-grow-0 flex flex-col lg:flex-row items-center p-4 cursor-pointer rounded-lg hover:bg-gray-600" None
    [ Elem "div" "flex justify-center items-center text-4xl text-gray-400 group-hover:text-gray-100" None
        [ icon ];
      Elem "p" "text-sm lg:text-lg lg:ml-4 text-gray-200" None [ Text text ] ].

(** The class attribute of NavBar's [nav] in the listing that first adds
    the transition: the minimized width is still [lg:w-auto]. *)
Definition NavBar_className_auto (isMinimized : bool) : string :=
  "
			bg-gray-900 text-gray-100

      lg:flex-shrink-0

      flex flex-row justify-around
			lg:flex-col lg:justify-start
      w-full " ++ (if isMinimized then "lg:w-auto" else "lg:w-[18rem]") ++ "

      lg:p-2
      lg:overflow-y-auto
      lg:transition-[width] lg:duration-200
      ".

(** The text NavItem shows for a route. *)
Definition label_text (r : Route) : string :=
  Js.param_default "Default" (text r).

(** ** The collection of blog posts: .tina/schema/collections/post.js *)
Module Tina.

(** What the router reads of a document: [document._sys.filename]. *)
Record Sys := { filename : string }.
Record Document := { _sys : Sys }.

(** [ui.router]: the address of a post in the site. *)
Definition router (document : Document) : string :=
  "/posts/" ++ filename (_sys document).

(** A field of the collection; [isBody] is absent ([None]) on all fields
    but the body. *)
Record Field := {
  field_label : string;
  field_name : string;
  field_type : string;
  isBody : option bool
}.

Record Collection := {
  label : string;
  name : string;
  path : string;
  fields : list Field;
  ui_router : Document -> string
}.

Definition post : Collection :=
  {| label := "Blog Posts";
     name := "post";
     path := "content/post";
     fields :=
       [ {| field_label := "Published"; field_name := "published";
            field_type := "boolean"; isBody := None |};
         {| field_type := "string"; field_label := "Title";
            field_name := "title"; isBody := None |};
         {| field_type := "rich-text"; field_label := "Blog Post Body";
            field_name := "body"; isBody := Some true |} ];
     ui_router := router |}.

End Tina.

(** ** Helper lemmas *)

Section MapIndex.
Variables A B C : Type.

Lemma map_index_from_length (f : A -> nat -> B) (xs : list A) (i : nat) :
  List.length (Js.map_index_from f i xs) = List.length xs.
Proof.
  revert i; induction xs as [|x rest IH]; intro i; simpl.
  - reflexivity.
  - now rewrite IH.
Qed.

Lemma map_index_from_map (f : A -> nat -> B) (g : B -> C) (h : A -> C) :
  (forall x i, g (f x i) = h x) ->
  forall xs i, map g (Js.map_index_from f i xs) = map h xs.
Proof.
  intros Hgf xs; induction xs as [|x rest IH]; intro i; simpl.
  - reflexivity.
  - now rewrite Hgf, IH.
Qed.

Lemma map_index_from_flat_map (f : A -> nat -> B) (g : B -> list C)
    (h : A -> list C) :
  (forall x i, g (f x i) = h x) ->
  forall xs i, flat_map g (Js.map_index_from f i xs) = flat_map h xs.
Proof.
  intros Hgf xs; induction xs as [|x rest IH]; intro i; simpl.
  - reflexivity.
  - now rewrite Hgf, IH.
Qed.

Lemma map_index_from_filter (f : A -> nat -> B) (keep : B -> bool) :
  (forall x i, keep (f x i) = true) ->
  forall xs i,
    filter keep (Js.map_index_from f i xs) = Js.map_index_from f i xs.
Proof.
  intros Hk xs; induction xs as [|x rest IH]; intro i; simpl.
  - reflexivity.
  - now rewrite Hk, IH.
Qed.

Lemma map_index_from_nth (f : A -> nat -> B) (xs : list A) (i k : nat) :
  nth_error (Js.map_index_from f i xs) k
  = option_map (fun x => f x (i + k)) (nth_error xs k).
Proof.
  revert i k; induction xs as [|x rest IH]; intros i k.
  - now destruct k.
  - destruct k as [|k]; simpl.
    + now rewrite Nat.add_0_r.
    + rewrite IH. now rewrite Nat.add_succ_r.
Qed.
End MapIndex.

Lemma layout_mode_narrow (w : N) :
  (w < lg_min_width)%N -> layout_mode w = Narrow.
Proof.
  intro Hw. unfold layout_mode.
  destruct (N.leb_spec lg_min_width w) as [Hle|Hlt]; [lia | reflexivity].
Qed.

Lemma layout_mode_wide (w : N) :
  (lg_min_width <= w)%N -> layout_mode w = Wide.
Proof.
  intro Hw. unfold layout_mode.
  destruct (N.leb_spec lg_min_width w) as [Hle|Hlt]; [reflexivity | lia].
Qed.

(** The boxes of NavBar: the header's, then each item's in turn. *)
Lemma NavBar_layout (mode : LayoutMode) (rs : list Route) (s : SidebarState) :
  layout mode (NavBar rs s)
  = [ BoxElem "nav" (computed mode (NavBar_className s))
        (layout mode (NavHeader toggle s)
         ++ flat_map
              (fun r => layout mode (NavItem (text r) (route_icon r) s))
              rs) ].
Proof.
  unfold NavBar.
  change (layout mode (Elem "nav" (NavBar_className s) None ?kids))
    with (if is_hidden mode (NavBar_className s) then []
          else [ BoxElem "nav" (computed mode (NavBar_className s))
                   (if is_reversed mode (NavBar_className s)
                    then List.rev (flat_map (layout mode) kids)
                    else flat_map (layout mode) kids) ]).
  replace (is_hidden mode (NavBar_className s)) with false
    by (destruct mode, s; vm_compute; reflexivity).
  replace (is_reversed mode (NavBar_className s)) with false
    by (destruct mode, s; vm_compute; reflexivity).
  cbn [flat_map]. unfold Js.map_index.
  rewrite map_index_from_flat_map
    with (h := fun r => layout mode (NavItem (text r) (route_icon r) s));
    [reflexivity | intros; reflexivity].
Qed.

(** ** The claims *)

(** C1: for every text and icon a route can give, NavItem lays out to the
    same boxes under the narrow layout whether the sidebar is expanded or
    minimized: in both states its box holds the box of the icon slot and
    then the box of the label paragraph with the text.  Under the wide
    layout the label's box is there exactly when the sidebar is expanded.
    The label is the second child of NavItem, and the only class of it
    that depends on the state is [lg:hidden], never [hidden]. *)
Theorem NavItem_narrow_ignores_state :
  forall (t : option string) (i : option (Node Updater)),
    let txt := Js.param_default "Default" t in
    let ic := Js.param_default (Text "") i in
    let root := "group flex-grow lg:flex-grow-0 flex flex-col lg:flex-row items-center p-4 cursor-pointer rounded-lg hover:bg-gray-600" in
    layout Narrow (NavItem t i EXPANDED) = layout Narrow (NavItem t i MINIMIZED)
    /\ (forall s : SidebarState,
          layout Narrow (NavItem t i s)
          = [ BoxElem "div" (computed Narrow root)
                (layout Narrow (icon_slot ic)
                 ++ [ BoxElem "p" (computed Narrow (label_className EXPANDED))
                        (layout Narrow (Text txt : Node Updater)) ]) ])
    /\ (forall s : SidebarState,
          layout Wide (NavItem t i s)
          = [ BoxElem "div" (computed Wide root)
                (layout Wide (icon_slot ic)
                 ++ (if s then []
                     else [ BoxElem "p"
                              (computed Wide (label_className EXPANDED))
                              (layout Wide (Text txt : Node Updater)) ])) ])
    /\ (forall s : SidebarState,
          children_of (NavItem t i s)
          = [ icon_slot ic;
              Elem "p" (label_className s) None [ Text txt ] ])
    /\ (forall (txt' : string) (s : SidebarState),
          layout Narrow (label txt' s)
          = [ BoxElem "p" (computed Narrow (label_className EXPANDED))
                (layout Narrow (Text txt' : Node Updater)) ])
    /\ (forall (txt' : string) (s : SidebarState),
          layout Wide (label txt' s)
          = if s then []
            else [ BoxElem "p" (computed Wide (label_className EXPANDED))
                     (layout Wide (Text txt' : Node Updater)) ])
    /\ (forall s : SidebarState,
          has_class "lg:hidden" (label_className s) = s
          /\ has_class "hidden" (label_className s) = false
          /\ is_hidden Narrow (label_className s) = false
          /\ is_hidden Wide (label_className s) = s).
Proof.
  intros t i txt ic root. subst txt ic root.
  split; [| split; [| split; [| split; [| split; [| split]]]]].
  - destruct t as [txt|], i as [ic|]; vm_compute; reflexivity.
  - intros [|]; destruct t as [[|c txt]|], i as [ic|]; vm_compute; reflexivity.
  - intros [|]; destruct t as [[|c txt]|], i as [ic|]; vm_compute; reflexivity.
  - intros s. destruct t, i; reflexivity.
  - intros txt [|]; destruct txt; vm_compute; reflexivity.
  - intros txt [|]; destruct txt; vm_compute; reflexivity.
  - intros [|]; vm_compute; repeat split.
Qed.

(** C3: the width of NavBar's [nav] under the wide layout is decided by the
    state alone and is one of two written lengths: 18rem while expanded,
    5.5rem while minimized.  No class of the element asks for [auto], and
    the width in force is never [auto]. *)
Theorem NavBar_wide_width :
  forall (rs : list Route) (s : SidebarState),
    root_class (NavBar rs s) = Some (NavBar_className s)
    /\ property Wide "width" (NavBar_className s)
       = Some (if s then "5.5rem" else "18rem")
    /\ property Wide "width" (NavBar_className s) <> Some "auto"
    /\ has_class "lg:w-auto" (NavBar_className s) = false
    /\ has_class "w-auto" (NavBar_className s) = false
    /\ has_class (if s then "lg:w-[5.5rem]" else "lg:w-[18rem]")
         (NavBar_className s) = true.
Proof.
  intros rs s. split; [reflexivity |].
  destruct s; vm_compute; repeat split; discriminate.
Qed.

(** C6: the branding block occurs in the tree NavHeader gives exactly when
    the sidebar is expanded; when minimized the place it would take holds
    [false], so nothing of it is in the tree or among the boxes.  The
    control is the second child in both states: the element with the
    chevron that runs the toggle it was given when clicked, and it is the
    only handler of NavHeader.  Under the wide layout its box is the last
    one in the header's box, after the branding block's when there is one,
    and the chevron in it is turned by 180 degrees exactly when the sidebar
    is minimized. *)
Theorem NavHeader_branding_iff_expanded :
  forall (onToggle : Updater) (s : SidebarState),
    (In branding (subnodes (NavHeader onToggle s)) <-> s = EXPANDED)
    /\ children_of (NavHeader onToggle s)
       = [ (if s then JsFalse else branding);
           Elem "div" (control_className s) (Some onToggle)
             [ Icon "HiChevronDoubleLeft" ] ]
    /\ In (control onToggle s) (children_of (NavHeader onToggle s))
    /\ handlers (NavHeader onToggle s) = [ onToggle ]
    /\ layout Wide (NavHeader onToggle s)
       = [ BoxElem "div" (computed Wide NavHeader_className)
             ((if s then [] else layout Wide branding)
              ++ [ BoxElem "div" (computed Wide (control_className s))
                     [ BoxIcon "HiChevronDoubleLeft" ] ]) ]
    /\ List.length (layout Wide branding) = 1
    /\ flat_map box_text (layout Wide branding)
       = [ "J"; "The Junto"; "Tailwind Demo" ]
    /\ click_paths Wide [] (NavHeader onToggle s)
       = ((if s then [ [] ] else [ []; []; []; []; []; [] ])
          ++ [ [ onToggle ]; [ onToggle ] ])%list
    /\ (forall mode : LayoutMode,
          property mode "transform" (control_className s)
          = if s then Some "rotate(180deg)" else None)
    /\ has_class "rotate-180" (control_className s) = s.
Proof.
  intros onToggle s.
  split; [| split; [| split; [| split; [| split; [| split; [| split;
    [| split; [| split]]]]]]]].
  - split.
    + intro Hin. destruct s; [| reflexivity].
      simpl in Hin.
      destruct Hin as [Hin | [Hin | [Hin | [Hin | []]]]]; discriminate Hin.
    + intro Hs. rewrite Hs. simpl. right. left. reflexivity.
  - destruct s; reflexivity.
  - destruct s; simpl; right; left; reflexivity.
  - destruct s; reflexivity.
  - destruct s; vm_compute; reflexivity.
  - vm_compute; reflexivity.
  - vm_compute; reflexivity.
  - destruct s; vm_compute; reflexivity.
  - intros mode. destruct mode, s; vm_compute; reflexivity.
  - destruct s; vm_compute; reflexivity.
Qed.

(** C7: the root element of NavHeader has the same class attribute in both
    states; it names [lg:h-20], and its height under the wide layout is
    5rem whether or not the branding block is there. *)
Theorem NavHeader_fixed_height :
  forall (onToggle : Updater) (s : SidebarState),
    root_class (NavHeader onToggle s) = Some NavHeader_className
    /\ has_class "lg:h-20" NavHeader_className = true
    /\ property Wide "height" NavHeader_className = Some "5rem"
    /\ map (fun b => style_get "height" (box_style b))
         (layout Wide (NavHeader onToggle s))
       = [ Some "5rem" ].
Proof.
  intros onToggle s. split; [reflexivity |].
  split; [vm_compute; reflexivity |].
  split; [vm_compute; reflexivity |].
  destruct s; vm_compute; reflexivity.
Qed.

(** C9: a route that lacks its text or its icon still renders: NavItem is
    the same tree as if the text were [Default] and the icon the empty
    string, its root has a box under either layout, the label shows
    [Default] and the icon slot is empty. *)
Theorem NavItem_fallbacks :
  forall (s : SidebarState),
    (forall i : option (Node Updater),
        NavItem None i s = NavItem (Some "Default") i s)
    /\ (forall t : option string,
          NavItem t None s = NavItem t (Some (Text "")) s)
    /\ NavItem (text {| text := None; icon := None |})
         (route_icon {| text := None; icon := None |}) s
       = Elem "div" "group flex-grow lg:flex-grow-0 flex flex-col lg:flex-row items-center p-4 cursor-pointer rounded-lg hover:bg-gray-600" None
           [ icon_slot (Text ""); label "Default" s ]
    /\ (forall mode : LayoutMode,
          layout mode (icon_slot (Text ""))
          = [ BoxElem "div"
                (computed mode "flex justify-center items-center text-4xl text-gray-400 group-hover:text-gray-100")
                [] ])
    /\ flat_map box_text (layout Narrow (NavItem None None s)) = [ "Default" ]
    /\ (forall (mode : LayoutMode) (t : option string)
               (i : option (Node Updater)),
          List.length (layout mode (NavItem t i s)) = 1).
Proof.
  intros s. repeat split.
  - intros [|]; vm_compute; reflexivity.
  - destruct s; vm_compute; reflexivity.
  - intros mode t i. destruct mode; vm_compute; reflexivity.
Qed.

(** C2: Layout places the content region first and the navigation region
    after it under the narrow layout (a column that runs backwards), and the
    navigation region before the content region under the wide layout (a
    row).  Each region is one box.  The direction depends on the viewport
    width alone, and resizing leaves the state of the sidebar as it is. *)
Theorem Layout_arrangement :
  forall (rs : list Route) (s : SidebarState)
         (children : list (Node Updater)),
    layout Narrow (Layout rs s children)
    = [ BoxElem "div" (computed Narrow Layout_className)
          (layout Narrow (content_region children)
           ++ layout Narrow (navigation_region rs s)) ]
    /\ layout Wide (Layout rs s children)
       = [ BoxElem "div" (computed Wide Layout_className)
             (layout Wide (navigation_region rs s)
              ++ layout Wide (content_region children)) ]
    /\ (forall mode : LayoutMode,
          List.length (layout mode (navigation_region rs s)) = 1
          /\ List.length (layout mode (content_region children)) = 1)
    /\ (forall width : N,
          property (layout_mode width) "flex-direction" Layout_className
          = Some (if (1024 <=? width)%N then "row" else "column-reverse"))
    /\ (forall (p : App.Page) (width : N),
          App.sidebar (App.step rs p (App.Resize width)) = App.sidebar p).
Proof.
  intros rs s children.
  assert (Hone : forall mode,
             List.length (layout mode (navigation_region rs s)) = 1
             /\ List.length (layout mode (content_region children)) = 1).
  { intro mode. split.
    - unfold navigation_region.
      change (layout mode (Comp "NavBar" None (NavBar rs s)))
        with (layout mode (NavBar rs s)).
      now rewrite NavBar_layout.
    - destruct mode; reflexivity. }
  split; [| split; [| split; [exact Hone | split]]].
  - destruct (Hone Narrow) as [Hn Hc].
    remember (layout Narrow (navigation_region rs s)) as nav eqn:En.
    remember (layout Narrow (content_region children)) as cont eqn:Ec.
    change (layout Narrow (Layout rs s children))
      with [ BoxElem "div" (computed Narrow Layout_className)
               (List.rev (layout Narrow (navigation_region rs s)
                          ++ (layout Narrow (content_region children) ++ []))) ].
    rewrite <- En, <- Ec, app_nil_r, rev_app_distr.
    destruct nav as [|n [|? ?]]; try discriminate Hn.
    destruct cont as [|c [|? ?]]; try discriminate Hc.
    reflexivity.
  - change (layout Wide (Layout rs s children))
      with [ BoxElem "div" (computed Wide Layout_className)
               (layout Wide (navigation_region rs s)
                ++ (layout Wide (content_region children) ++ [])) ].
    now rewrite app_nil_r.
  - intro width. unfold layout_mode, lg_min_width.
    destruct (1024 <=? width)%N; vm_compute; reflexivity.
  - intros p width. reflexivity.
Qed.

(** C8: for every array of routes, of any length, and in both states the
    children of NavBar's [nav] after the header are NavItem components, one
    per route and in the order of the array: the k-th has the key
    [navitem-k] and is NavItem of the k-th route's text and icon. *)
Theorem NavBar_one_item_per_route :
  forall (rs : list Route) (s : SidebarState),
    let items := filter (@is_component Updater "NavItem")
                   (children_of (NavBar rs s)) in
    List.length items = List.length rs
    /\ map (@component_output Updater) items
       = map (fun r => Some (NavItem (text r) (route_icon r) s)) rs
    /\ (forall k : nat,
          nth_error items k
          = option_map
              (fun r => Comp "NavItem" (Some ("navitem-" ++ Js.index_str k))
                          (NavItem (text r) (route_icon r) s))
              (nth_error rs k))
    /\ children_of (NavBar rs s)
       = Comp "NavHeader" None (NavHeader toggle s) :: items.
Proof.
  intros rs s items.
  assert (Hitems :
            items
            = Js.map_index
                (fun route index =>
                   Comp "NavItem" (Some ("navitem-" ++ Js.index_str index))
                     (NavItem (text route) (route_icon route) s))
                rs).
  { subst items. unfold NavBar, children_of.
    cbn [filter is_component]. 
    replace ("NavHeader" =? "NavItem") with false by reflexivity.
    unfold Js.map_index. apply map_index_from_filter.
    intros x i. reflexivity. }
  rewrite Hitems. unfold Js.map_index.
  split; [apply map_index_from_length |].
  split; [apply map_index_from_map; intros; reflexivity |].
  split; [intro k; apply map_index_from_nth | reflexivity].
Qed.

(** *** Clicks *)

Lemma flat_map_all_nil (A B : Type) (f : A -> list B) (xs : list A) :
  (forall x, f x = []) -> flat_map f xs = [].
Proof.
  intro Hf. induction xs as [|x rest IH]; simpl.
  - reflexivity.
  - now rewrite Hf, IH.
Qed.

(** The clickable places of NavBar: the [nav], the header's, each item's. *)
Lemma NavBar_click_paths (mode : LayoutMode) (rs : list Route)
    (s : SidebarState) :
  click_paths mode [] (NavBar rs s)
  = [] :: click_paths mode [] (NavHeader toggle s)
       ++ flat_map
            (fun r => click_paths mode [] (NavItem (text r) (route_icon r) s))
            rs.
Proof.
  unfold NavBar.
  change (click_paths mode [] (Elem "nav" (NavBar_className s) None ?kids))
    with (if is_hidden mode (NavBar_className s) then []
          else [] :: flat_map (click_paths mode []) kids).
  replace (is_hidden mode (NavBar_className s)) with false
    by (destruct mode, s; vm_compute; reflexivity).
  cbn [flat_map]. unfold Js.map_index.
  rewrite map_index_from_flat_map
    with (h := fun r =>
                 click_paths mode [] (NavItem (text r) (route_icon r) s));
    [reflexivity | intros; reflexivity].
Qed.

(** A click on a NavItem runs no handler. *)
Lemma NavItem_click_paths (mode : LayoutMode) (r : Route) (s : SidebarState) :
  Forall (fun hs : list Updater => hs = [])
    (click_paths mode [] (NavItem (text r) (route_icon r) s)).
Proof.
  destruct r as [t [ic|]], mode, s; vm_compute; repeat constructor.
Qed.

(** A click on the header runs [toggle] or nothing. *)
Lemma NavHeader_click_paths (mode : LayoutMode) (s : SidebarState) :
  Forall (fun hs : list Updater => hs = [] \/ hs = [toggle])
    (click_paths mode [] (NavHeader toggle s)).
Proof.
  destruct mode, s; vm_compute;
    repeat first [apply Forall_nil | apply Forall_cons];
    first [left; reflexivity | right; reflexivity].
Qed.

Lemma NavBar_narrow_paths (rs : list Route) (s : SidebarState) :
  Forall (fun hs : list Updater => hs = [])
    (click_paths Narrow [] (NavBar rs s)).
Proof.
  rewrite NavBar_click_paths.
  replace (click_paths Narrow [] (NavHeader toggle s)) with (@nil (list Updater))
    by (destruct s; vm_compute; reflexivity).
  constructor; [reflexivity |].
  cbn [app]. apply Forall_flat_map.
  apply Forall_forall. intros r _. apply NavItem_click_paths.
Qed.

Lemma click_narrow (rs : list Route) (target : nat) (s : SidebarState) :
  App.click rs Narrow target s = s.
Proof.
  unfold App.click.
  destruct (nth_error (click_paths Narrow [] (NavBar rs s)) target)
    as [hs|] eqn:Hnth; [| reflexivity].
  apply nth_error_In in Hnth.
  pose proof (NavBar_narrow_paths rs s) as Hall.
  rewrite Forall_forall in Hall.
  now rewrite (Hall hs Hnth).
Qed.

Lemma nth_error_cons_app1 (A : Type) (x : A) (l1 l2 : list A) (n : nat) :
  n < List.length l1 -> nth_error (x :: l1 ++ l2) (S n) = nth_error l1 n.
Proof.
  intro Hn. cbn [nth_error]. now apply nth_error_app1.
Qed.

Lemma click_control (rs : list Route) (s : SidebarState) :
  App.click rs Wide (App.control_target s) s = toggle s.
Proof.
  unfold App.click. rewrite NavBar_click_paths.
  destruct s; unfold App.control_target.
  - rewrite nth_error_cons_app1 by (vm_compute; lia). reflexivity.
  - rewrite nth_error_cons_app1 by (vm_compute; lia). reflexivity.
Qed.

Lemma NavBar_handlers (rs : list Route) (s : SidebarState) :
  handlers (NavBar rs s) = [toggle].
Proof.
  unfold NavBar. cbn [handlers flat_map app].
  unfold Js.map_index.
  rewrite map_index_from_flat_map with (h := fun _ : Route => @nil Updater).
  - rewrite flat_map_all_nil by reflexivity.
    destruct s; reflexivity.
  - intros [t [ic|]] i; reflexivity.
Qed.

(** C4: [toggle] undoes itself.  It is the one handler NavBar attaches, so
    two activations of the control bring back the state they started from,
    the tree NavBar returns for it, and, from the initial state, the boxes
    of the initial rendering under either layout. *)
Theorem toggle_involution :
  (forall s : SidebarState, toggle (toggle s) = s)
  /\ (forall (rs : list Route) (s : SidebarState),
        handlers (NavBar rs s) = [toggle]
        /\ NavBar rs (toggle (toggle s)) = NavBar rs s
        /\ App.click rs Wide (App.control_target (toggle s))
             (App.click rs Wide (App.control_target s) s) = s)
  /\ (forall (rs : list Route) (mode : LayoutMode),
        layout mode (NavBar rs (toggle (toggle initial_state)))
        = layout mode (NavBar rs initial_state)).
Proof.
  assert (Hinv : forall s : SidebarState, toggle (toggle s) = s).
  { intro s. unfold toggle. apply negb_involutive. }
  split; [exact Hinv |]. split.
  - intros rs s. split; [apply NavBar_handlers |].
    split; [now rewrite Hinv |].
    rewrite click_control, click_control. apply Hinv.
  - intros rs mode. now rewrite Hinv.
Qed.



Lemma step_narrow (rs : list Route) (p : App.Page) (e : App.Event) :
  (App.viewport_width p < lg_min_width)%N ->
  App.narrow_event e = true ->
  (App.viewport_width (App.step rs p e) < lg_min_width)%N
  /\ App.sidebar (App.step rs p e) = App.sidebar p.
Proof.
  intros Hw He. destruct e as [| | width | target]; try discriminate He.
  - cbn [App.step App.viewport_width App.sidebar].
    apply N.ltb_lt in He. split; [exact He | reflexivity].
  - cbn [App.step App.viewport_width App.sidebar].
    split; [exact Hw |].
    rewrite (layout_mode_narrow Hw).
    destruct (App.sidebar p) as [s|]; [| reflexivity].
    cbn [option_map]. now rewrite click_narrow.
Qed.

(** C10: under the narrow layout the root of NavHeader has [display: none]
    ([hidden]; [flex] under the wide layout only), so it and the control
    inside it have no box and no clickable place; the control holds the one
    handler of NavBar, and every place that can be clicked runs none.
    Hence, while the viewport stays below the breakpoint, no sequence of
    clicks and resizes changes the state of the sidebar. *)
Theorem narrow_layout_never_toggles :
  forall (rs : list Route) (p : App.Page) (es : list App.Event),
    (App.viewport_width p < lg_min_width)%N ->
    forallb App.narrow_event es = true ->
    App.sidebar (App.run rs p es) = App.sidebar p
    /\ (App.viewport_width (App.run rs p es) < lg_min_width)%N
    /\ property Narrow "display" NavHeader_className = Some "none"
    /\ property Wide "display" NavHeader_className = Some "flex"
    /\ (forall s : SidebarState,
          layout Narrow (NavHeader toggle s) = []
          /\ click_paths Narrow [] (NavHeader toggle s) = []
          /\ handlers (NavBar rs s) = [toggle]
          /\ handlers (NavHeader toggle s) = [toggle]
          /\ Forall (fun hs : list Updater => hs = [])
               (click_paths Narrow [] (NavBar rs s))
          /\ (forall target : nat, App.click rs Narrow target s = s)).
Proof.
  intros rs p es Hw Hes.
  assert (Hrun : (App.viewport_width (App.run rs p es) < lg_min_width)%N
                 /\ App.sidebar (App.run rs p es) = App.sidebar p).
  { revert p Hw. induction es as [|e rest IH]; intros p Hw.
    - split; [exact Hw | reflexivity].
    - cbn [forallb] in Hes. apply andb_prop in Hes. destruct Hes as [He Hrest].
      destruct (step_narrow rs p e Hw He) as [Hw' Hs'].
      destruct (IH Hrest (App.step rs p e) Hw') as [Hw'' Hs''].
      unfold App.run in *. cbn [fold_left].
      split; [exact Hw'' | now rewrite Hs''].  }
  destruct Hrun as [Hw' Hs'].
  split; [exact Hs' |]. split; [exact Hw' |].
  split; [vm_compute; reflexivity |]. split; [vm_compute; reflexivity |].
  intro s.
  split; [destruct s; vm_compute; reflexivity |].
  split; [destruct s; vm_compute; reflexivity |].
  split; [apply NavBar_handlers |].
  split; [destruct s; reflexivity |].
  split; [apply NavBar_narrow_paths |].
  intro target. apply click_narrow.
Qed.

(** The theorem above at a phone-sized viewport with the sidebar minimized
    (it was minimized on a wide viewport before the window shrank). *)
Lemma narrow_layout_never_toggles_witness :
  (App.viewport_width {| App.viewport_width := 375;
                         App.sidebar := Some MINIMIZED |} < lg_min_width)%N
  /\ forallb App.narrow_event
       [ App.Click 0; App.Click 3; App.Resize 800; App.Click 1 ] = true
  /\ App.sidebar
       (App.run routes
          {| App.viewport_width := 375; App.sidebar := Some MINIMIZED |}
          [ App.Click 0; App.Click 3; App.Resize 800; App.Click 1 ])
     = Some MINIMIZED.
Proof.
  split; [reflexivity |]. split; [reflexivity |].
  apply (narrow_layout_never_toggles routes
           {| App.viewport_width := 375; App.sidebar := Some MINIMIZED |}
           [ App.Click 0; App.Click 3; App.Resize 800; App.Click 1 ]);
    reflexivity.
Defined.

(** ** Further properties of the code *)

(** *** The router of the post collection *)

Lemma strip_prefix_app (p s : string) : strip_prefix p (p ++ s) = Some s.
Proof.
  induction p as [|c p IH]; simpl.
  - reflexivity.
  - now rewrite Ascii.eqb_refl.
Qed.

(** X1: the router puts every post under [/posts/]: taking that prefix off
    the address gives back the file name, so two documents have the same
    address exactly when they have the same file name, and the router of
    the [post] collection is this function. *)
Theorem router_round_trip :
  forall d d' : Tina.Document,
    strip_prefix "/posts/" (Tina.router d) = Some (Tina.filename (Tina._sys d))
    /\ (Tina.router d = Tina.router d' <-> d = d')
    /\ Tina.ui_router Tina.post d = Tina.router d.
Proof.
  intros d d'. split; [| split].
  - unfold Tina.router. apply strip_prefix_app.
  - split.
    + intro Heq.
      assert (Hs : Some (Tina.filename (Tina._sys d))
                   = Some (Tina.filename (Tina._sys d'))).
      { unfold Tina.router in Heq.
        rewrite <- (strip_prefix_app "/posts/" (Tina.filename (Tina._sys d))).
        rewrite Heq. apply strip_prefix_app. }
      destruct d as [[f]], d' as [[f']]. simpl in Hs.
      now injection Hs as ->.
    + now intros ->.
  - reflexivity.
Qed.

(** *** The keys of the items *)

Lemma index_str_inj (a b : nat) : Js.index_str a = Js.index_str b -> a = b.
Proof.
  unfold Js.index_str. intro Heq.
  apply DecimalNat.Unsigned.to_uint_inj.
  apply (f_equal DecimalString.NilEmpty.uint_of_string) in Heq.
  rewrite !DecimalString.NilEmpty.usu in Heq.
  now injection Heq.
Qed.

Lemma map_index_from_seq (A B C : Type) (f : A -> nat -> B) (g : B -> C)
    (h : nat -> C) :
  (forall x i, g (f x i) = h i) ->
  forall xs i,
    map g (Js.map_index_from f i xs) = map h (seq i (List.length xs)).
Proof.
  intros Hgf xs. induction xs as [|x rest IH]; intro i; simpl.
  - reflexivity.
  - now rewrite Hgf, IH.
Qed.

Lemma NoDup_map_injective (A B : Type) (f : A -> B) (l : list A) :
  (forall x y, f x = f y -> x = y) -> NoDup l -> NoDup (map f l).
Proof.
  intros Hinj Hl. induction Hl as [|x l Hx Hl IH]; simpl; constructor.
  - rewrite in_map_iff. intros (y & Hy & Hin).
    apply Hinj in Hy. now subst.
  - exact IH.
Qed.

(** X2: for every array of routes the children of NavBar's [nav] have
    pairwise different keys: the header has none, and the k-th item has
    [navitem-k], different for different k. *)
Theorem NavBar_keys_distinct :
  forall (rs : list Route) (s : SidebarState),
    NoDup (map (@component_key Updater) (children_of (NavBar rs s)))
    /\ map (@component_key Updater) (children_of (NavBar rs s))
       = None :: map (fun k => Some ("navitem-" ++ Js.index_str k))
                   (seq 0 (List.length rs)).
Proof.
  intros rs s.
  assert (Hkeys :
            map (@component_key Updater) (children_of (NavBar rs s))
            = None :: map (fun k => Some ("navitem-" ++ Js.index_str k))
                        (seq 0 (List.length rs))).
  { unfold NavBar, children_of, Js.map_index. cbn [map component_key].
    f_equal. apply map_index_from_seq. intros; reflexivity. }
  split; [| exact Hkeys].
  rewrite Hkeys. constructor.
  - rewrite in_map_iff. intros (k & Hk & _). discriminate Hk.
  - apply NoDup_map_injective; [| apply seq_NoDup].
    intros a b Hab. injection Hab as Hab.
    apply index_str_inj.
    assert (Hs : Some (Js.index_str a) = Some (Js.index_str b)).
    { rewrite <- (strip_prefix_app "navitem-" (Js.index_str a)).
      rewrite Hab. apply strip_prefix_app. }
    now injection Hs.
Qed.

(** *** The narrow layout does not see the state *)

Lemma NavItem_narrow_eq (t : option string) (i : option (Node Updater))
    (s s' : SidebarState) :
  layout Narrow (NavItem t i s) = layout Narrow (NavItem t i s').
Proof.
  destruct t, i, s, s'; vm_compute; reflexivity.
Qed.

Lemma NavBar_narrow_eq (rs : list Route) (s s' : SidebarState) :
  layout Narrow (NavBar rs s) = layout Narrow (NavBar rs s').
Proof.
  rewrite !NavBar_layout.
  replace (computed Narrow (NavBar_className s))
    with (computed Narrow (NavBar_className s'))
    by (destruct s, s'; vm_compute; reflexivity).
  replace (layout Narrow (NavHeader toggle s)) with (@nil Box)
    by (destruct s; vm_compute; reflexivity).
  replace (layout Narrow (NavHeader toggle s')) with (@nil Box)
    by (destruct s'; vm_compute; reflexivity).
  do 2 f_equal. apply flat_map_ext. intro r. apply NavItem_narrow_eq.
Qed.

(** The boxes of Layout: its two regions, last to first below the
    breakpoint. *)
Lemma Layout_layout (mode : LayoutMode) (rs : list Route) (s : SidebarState)
    (children : list (Node Updater)) :
  layout mode (Layout rs s children)
  = [ BoxElem "div" (computed mode Layout_className)
        (match mode with
         | Narrow =>
             List.rev (layout Narrow (NavBar rs s)
                       ++ layout Narrow (content_region children))
         | Wide =>
             layout Wide (NavBar rs s) ++ layout Wide (content_region children)
         end) ].
Proof.
  destruct mode.
  - change (layout Narrow (Layout rs s children))
      with [ BoxElem "div" (computed Narrow Layout_className)
               (List.rev (layout Narrow (NavBar rs s)
                          ++ (layout Narrow (content_region children) ++ []))) ].
    now rewrite app_nil_r.
  - change (layout Wide (Layout rs s children))
      with [ BoxElem "div" (computed Wide Layout_className)
               (layout Wide (NavBar rs s)
                ++ (layout Wide (content_region children) ++ [])) ].
    now rewrite app_nil_r.
Qed.

(** X3: for every array of routes and any page content, what NavBar and the
    whole Layout lay out below the breakpoint is the same in both states of
    the sidebar, while above the breakpoint the two states never give the
    same boxes. *)
Theorem narrow_rendering_ignores_state :
  forall (rs : list Route) (children : list (Node Updater)),
    layout Narrow (NavBar rs EXPANDED) = layout Narrow (NavBar rs MINIMIZED)
    /\ layout Narrow (Layout rs EXPANDED children)
       = layout Narrow (Layout rs MINIMIZED children)
    /\ layout Wide (NavBar rs EXPANDED) <> layout Wide (NavBar rs MINIMIZED)
    /\ layout Wide (Layout rs EXPANDED children)
       <> layout Wide (Layout rs MINIMIZED children).
Proof.
  intros rs children.
  assert (Hwide : layout Wide (NavBar rs EXPANDED)
                  <> layout Wide (NavBar rs MINIMIZED)).
  { rewrite !NavBar_layout. intro Heq.
    assert (Hstyle : computed Wide (NavBar_className EXPANDED)
                     = computed Wide (NavBar_className MINIMIZED))
      by congruence.
    vm_compute in Hstyle. discriminate Hstyle. }
  split; [apply NavBar_narrow_eq |]. split; [| split; [exact Hwide |]].
  - rewrite !Layout_layout.
    now rewrite (NavBar_narrow_eq rs EXPANDED MINIMIZED).
  - rewrite !Layout_layout. intro Heq.
    remember (layout Wide (NavBar rs EXPANDED)) as expanded.
    remember (layout Wide (NavBar rs MINIMIZED)) as minimized.
    remember (layout Wide (content_region children)) as content.
    remember (computed Wide Layout_className) as style.
    injection Heq as Hkids.
    apply app_inv_tail in Hkids. exact (Hwide Hkids).
Qed.

(** X4: minimizing the sidebar on a wide viewport and then shrinking the
    window below the breakpoint shows what the page shows when it was never
    minimized; the state itself stays MINIMIZED through the resize. *)
Theorem minimize_then_shrink :
  forall (rs : list Route) (wide narrow : N),
    (lg_min_width <= wide)%N ->
    (narrow < lg_min_width)%N ->
    let start := {| App.viewport_width := wide; App.sidebar := None |} in
    let minimized :=
      App.run rs start
        [ App.Mount; App.Click (App.control_target initial_state);
          App.Resize narrow ] in
    let untouched := App.run rs start [ App.Mount; App.Resize narrow ] in
    App.sidebar minimized = Some MINIMIZED
    /\ App.sidebar untouched = Some EXPANDED
    /\ App.view rs minimized = App.view rs untouched.
Proof.
  intros rs wide narrow Hwide Hnarrow start minimized untouched.
  assert (Hmin : minimized
                 = {| App.viewport_width := narrow;
                      App.sidebar := Some MINIMIZED |}).
  { subst minimized start. unfold App.run.
    cbn [fold_left App.step App.viewport_width App.sidebar option_map].
    rewrite (layout_mode_wide Hwide), click_control. reflexivity. }
  assert (Hunt : untouched
                 = {| App.viewport_width := narrow;
                      App.sidebar := Some EXPANDED |}) by reflexivity.
  rewrite Hmin, Hunt. split; [reflexivity |]. split; [reflexivity |].
  unfold App.view. cbn [App.sidebar App.viewport_width].
  rewrite (layout_mode_narrow Hnarrow).
  symmetry. apply NavBar_narrow_eq.
Qed.

(** The theorem above for a window that goes from 1280 to 390 pixels. *)
Lemma minimize_then_shrink_witness :
  (lg_min_width <= 1280)%N
  /\ (390 < lg_min_width)%N
  /\ App.view routes
       (App.run routes {| App.viewport_width := 1280; App.sidebar := None |}
          [ App.Mount; App.Click (App.control_target initial_state);
            App.Resize 390 ])
     = App.view routes
         (App.run routes {| App.viewport_width := 1280; App.sidebar := None |}
            [ App.Mount; App.Resize 390 ]).
Proof.
  split; [vm_compute; discriminate |]. split; [reflexivity |].
  apply (@minimize_then_shrink routes 1280%N 390%N);
    [vm_compute; discriminate | reflexivity].
Defined.

(** *** Which clicks reach the state *)

Lemma nth_error_all_nil (A : Type) (l : list (list A)) (k : nat) (x : list A) :
  Forall (fun hs => hs = []) l -> nth_error l k = Some x -> x = [].
Proof.
  intros Hall Hnth. apply nth_error_In in Hnth.
  rewrite Forall_forall in Hall. now apply Hall.
Qed.

Lemma items_click_paths (mode : LayoutMode) (rs : list Route)
    (s : SidebarState) :
  Forall (fun hs : list Updater => hs = [])
    (flat_map
       (fun r => click_paths mode [] (NavItem (text r) (route_icon r) s)) rs).
Proof.
  apply Forall_flat_map. apply Forall_forall.
  intros r _. apply NavItem_click_paths.
Qed.

Lemma click_past_header (rs : list Route) (s : SidebarState) (k : nat) :
  match
    nth_error
      (flat_map
         (fun r => click_paths Wide [] (NavItem (text r) (route_icon r) s)) rs)
      k
  with
  | Some hs => App.fire hs s
  | None => s
  end = s.
Proof.
  destruct (nth_error _ k) as [hs|] eqn:Hnth; [| reflexivity].
  now rewrite (nth_error_all_nil _ (items_click_paths Wide rs s) Hnth).
Qed.

(** X5: under the wide layout a click changes the state exactly when it
    lands on the control or on the chevron inside it, and then it toggles
    it; a click anywhere else in NavBar, on the branding block or on any
    item, leaves the state as it is. *)
Theorem wide_click_effect :
  forall (rs : list Route) (s : SidebarState) (target : nat),
    App.click rs Wide target s
    = if ((target =? App.control_target s)%nat
          || (target =? S (App.control_target s))%nat)%bool
      then toggle s
      else s.
Proof.
  intros rs s target. unfold App.click. rewrite NavBar_click_paths.
  destruct s.
  - replace (click_paths Wide [] (NavHeader toggle true))
      with ([ []; [toggle]; [toggle] ] : list (list Updater))
      by (vm_compute; reflexivity).
    do 4 (destruct target as [|target]; [reflexivity |]).
    cbn [nth_error app App.control_target Nat.eqb orb].
    apply click_past_header.
  - replace (click_paths Wide [] (NavHeader toggle false))
      with ([ []; []; []; []; []; []; [toggle]; [toggle] ]
            : list (list Updater))
      by (vm_compute; reflexivity).
    do 9 (destruct target as [|target]; [reflexivity |]).
    cbn [nth_error app App.control_target Nat.eqb orb].
    apply click_past_header.
Qed.

(** X6: activating the control n times under the wide layout leaves the
    state where it was when n is even and toggles it when n is odd. *)
Theorem press_control_parity :
  forall (rs : list Route) (n : nat) (s : SidebarState),
    Nat.iter n (App.press_control rs) s
    = if Nat.even n then s else toggle s.
Proof.
  intros rs n s. induction n as [|n IH].
  - reflexivity.
  - rewrite Nat.iter_succ, IH. unfold App.press_control.
    rewrite click_control, Nat.even_succ, <- Nat.negb_even.
    destruct (Nat.even n); cbn [negb]; [reflexivity |].
    unfold toggle. apply negb_involutive.
Qed.

(** *** What NavBar shows *)

Lemma flat_map_flat_map (A B C : Type) (f : A -> list B) (g : B -> list C)
    (l : list A) :
  flat_map g (flat_map f l) = flat_map (fun x => flat_map g (f x)) l.
Proof.
  induction l as [|x rest IH]; simpl.
  - reflexivity.
  - now rewrite flat_map_app, IH.
Qed.

Lemma flat_map_singletons (A : Type) (f : A -> list Box) (l : list A) :
  (forall x, List.length (f x) = 1) ->
  List.length (flat_map f l) = List.length l.
Proof.
  intro Hone. induction l as [|x rest IH]; simpl.
  - reflexivity.
  - now rewrite length_app, Hone, IH.
Qed.

Lemma nonempty_labels (rs : list Route) :
  flat_map (fun r => nonempty [label_text r]) rs = nonempty (map label_text rs).
Proof.
  induction rs as [|r rest IH]; cbn [flat_map map].
  - reflexivity.
  - rewrite IH. unfold nonempty. cbn [filter].
    now destruct (negb (label_text r =? "")).
Qed.

Lemma NavItem_text (mode : LayoutMode) (r : Route) (s : SidebarState) :
  flat_map box_text (layout mode (NavItem (text r) (route_icon r) s))
  = match mode, s with
    | Wide, true => []
    | _, _ => nonempty [label_text r]
    end.
Proof.
  destruct r as [[[|c t]|] [ic|]], mode, s; vm_compute; reflexivity.
Qed.

Lemma NavItem_icons (mode : LayoutMode) (r : Route) (s : SidebarState) :
  flat_map box_icons (layout mode (NavItem (text r) (route_icon r) s))
  = match icon r with
    | Some name => [name]
    | None => []
    end.
Proof.
  destruct r as [[[|c t]|] [ic|]], mode, s; vm_compute; reflexivity.
Qed.

(** X7: below the breakpoint NavBar shows the text of every route, in
    order and in both states, with [Default] for a route without text.
    Above it the expanded sidebar shows the branding texts and then the
    same route texts, and the minimized sidebar shows no text at all: only
    the chevron and the icons of the routes. *)
Theorem NavBar_shown_text :
  forall (rs : list Route) (s : SidebarState),
    flat_map box_text (layout Narrow (NavBar rs s))
    = nonempty (map label_text rs)
    /\ flat_map box_text (layout Wide (NavBar rs EXPANDED))
       = ([ "J"; "The Junto"; "Tailwind Demo" ]
          ++ nonempty (map label_text rs))%list
    /\ flat_map box_text (layout Wide (NavBar rs MINIMIZED)) = []
    /\ flat_map box_icons (layout Wide (NavBar rs s))
       = "HiChevronDoubleLeft"
         :: flat_map (fun r => match icon r with
                               | Some name => [name]
                               | None => []
                               end) rs
    /\ flat_map box_icons (layout Narrow (NavBar rs s))
       = flat_map (fun r => match icon r with
                            | Some name => [name]
                            | None => []
                            end) rs.
Proof.
  intros rs s. rewrite !NavBar_layout.
  cbn [flat_map box_text box_icons]. rewrite !app_nil_r, !flat_map_app.
  rewrite !flat_map_flat_map.
  split; [| split; [| split; [| split]]].
  - replace (layout Narrow (NavHeader toggle s)) with (@nil Box)
      by (destruct s; vm_compute; reflexivity).
    cbn [flat_map app]. rewrite <- nonempty_labels.
    apply flat_map_ext. intro r. rewrite NavItem_text. now destruct s.
  - replace (flat_map box_text (layout Wide (NavHeader toggle EXPANDED)))
      with [ "J"; "The Junto"; "Tailwind Demo" ]
      by (vm_compute; reflexivity).
    f_equal. rewrite <- nonempty_labels.
    apply flat_map_ext. intro r. now rewrite NavItem_text.
  - replace (flat_map box_text (layout Wide (NavHeader toggle MINIMIZED)))
      with (@nil string) by (vm_compute; reflexivity).
    cbn [app]. apply flat_map_all_nil. intro r. now rewrite NavItem_text.
  - replace (flat_map box_icons (layout Wide (NavHeader toggle s)))
      with [ "HiChevronDoubleLeft" ]
      by (destruct s; vm_compute; reflexivity).
    cbn [app]. f_equal. apply flat_map_ext. intro r. apply NavItem_icons.
  - replace (layout Narrow (NavHeader toggle s)) with (@nil Box)
      by (destruct s; vm_compute; reflexivity).
    cbn [flat_map app]. apply flat_map_ext. intro r. apply NavItem_icons.
Qed.

(** X8: the [nav] box holds one box per route below the breakpoint, the
    items alone since the header has no box there, and one more above it,
    the header's, placed before the items; this holds for every array of
    routes and both states. *)
Theorem NavBar_box_count :
  forall (rs : list Route) (s : SidebarState),
    flat_map box_kids (layout Narrow (NavBar rs s))
    = flat_map (fun r => layout Narrow (NavItem (text r) (route_icon r) s)) rs
    /\ flat_map box_kids (layout Wide (NavBar rs s))
       = (layout Wide (NavHeader toggle s)
          ++ flat_map
               (fun r => layout Wide (NavItem (text r) (route_icon r) s)) rs)%list
    /\ List.length (layout Wide (NavHeader toggle s)) = 1
    /\ List.length (flat_map box_kids (layout Narrow (NavBar rs s)))
       = List.length rs
    /\ List.length (flat_map box_kids (layout Wide (NavBar rs s)))
       = S (List.length rs).
Proof.
  intros rs s. rewrite !NavBar_layout.
  cbn [flat_map box_kids]. rewrite !app_nil_r.
  assert (Hitem : forall mode (r : Route),
             List.length (layout mode (NavItem (text r) (route_icon r) s)) = 1).
  { intros mode [t [ic|]]; destruct mode, t, s; vm_compute; reflexivity. }
  assert (Hheader : List.length (layout Wide (NavHeader toggle s)) = 1)
    by (destruct s; vm_compute; reflexivity).
  replace (layout Narrow (NavHeader toggle s)) with (@nil Box)
    by (destruct s; vm_compute; reflexivity).
  cbn [app].
  split; [reflexivity |]. split; [reflexivity |]. split; [exact Hheader |].
  split.
  - apply flat_map_singletons. intro r. apply Hitem.
  - rewrite length_app, Hheader. cbn [Nat.add]. f_equal.
    apply flat_map_singletons. intro r. apply Hitem.
Qed.

(** X9: in the content region the page header is placed before whatever
    content the page passes in, under both layouts: the region is a column
    that does not run backwards, and the header always has its box. *)
Theorem Header_above_content :
  forall (mode : LayoutMode) (children : list (Node Updater)),
    layout mode (content_region children)
    = [ BoxElem "div" (computed mode "flex flex-col overflow-y-auto")
          (layout mode Header ++ flat_map (layout mode) children) ]
    /\ List.length (layout mode Header) = 1
    /\ flat_map box_text (layout mode Header) = [ "The Junto" ]
    /\ property mode "flex-direction" "flex flex-col overflow-y-auto"
       = Some "column".
Proof.
  intros mode children.
  split; [| destruct mode; vm_compute; repeat split].
  destruct mode.
  - change (layout Narrow (content_region children))
      with [ BoxElem "div" (computed Narrow "flex flex-col overflow-y-auto")
               (layout Narrow Header ++ flat_map (layout Narrow) children) ].
    reflexivity.
  - change (layout Wide (content_region children))
      with [ BoxElem "div" (computed Wide "flex flex-col overflow-y-auto")
               (layout Wide Header ++ flat_map (layout Wide) children) ].
    reflexivity.
Qed.

(** *** The two arrangements *)

(** X10: NavBar's [nav] is a full-width row with its items spread out below
    the breakpoint, and above it a column that starts at the top, does not
    shrink in Layout's row and scrolls on its own; the width transition is
    declared above the breakpoint only, for 200ms.  None of this depends on
    the state.  The content region scrolls on its own under both layouts,
    inside a frame of the size of the screen. *)
Theorem NavBar_responsive_arrangement :
  forall s : SidebarState,
    let nav mode prop := property mode prop (NavBar_className s) in
    (nav Narrow "flex-direction" = Some "row"
     /\ nav Narrow "justify-content" = Some "space-around"
     /\ nav Narrow "width" = Some "100%"
     /\ nav Narrow "flex-shrink" = None
     /\ nav Narrow "overflow-y" = None
     /\ nav Narrow "transition-property" = None)
    /\ (nav Wide "flex-direction" = Some "column"
        /\ nav Wide "justify-content" = Some "flex-start"
        /\ nav Wide "flex-shrink" = Some "0"
        /\ nav Wide "overflow-y" = Some "auto"
        /\ nav Wide "transition-property" = Some "width"
        /\ nav Wide "transition-duration" = Some "200ms")
    /\ (forall mode : LayoutMode,
          property mode "overflow-y" "flex flex-col overflow-y-auto"
          = Some "auto"
          /\ property mode "height" Layout_className = Some "100vh"
          /\ property mode "width" Layout_className = Some "100vw").
Proof.
  intros s nav. subst nav.
  split; [| split].
  - destruct s; vm_compute; repeat split.
  - destruct s; vm_compute; repeat split.
  - intros [|]; vm_compute; repeat split.
Qed.

(** X11: a NavItem stacks its icon over its text and grows to share the
    row below the breakpoint, and puts the icon beside the text without
    growing above it, whatever its text, icon and state. *)
Theorem NavItem_responsive_arrangement :
  forall (t : option string) (i : option (Node Updater)) (s : SidebarState),
    let root mode prop :=
      map (fun b => style_get prop (box_style b)) (layout mode (NavItem t i s))
    in
    root Narrow "flex-direction" = [ Some "column" ]
    /\ root Narrow "flex-grow" = [ Some "1" ]
    /\ root Wide "flex-direction" = [ Some "row" ]
    /\ root Wide "flex-grow" = [ Some "0" ]
    /\ root Wide "align-items" = [ Some "center" ].
Proof.
  intros t i s root. subst root.
  destruct t, i, s; vm_compute; repeat split.
Qed.

(** *** Earlier listings *)

(** X12: the listing of NavBar that still uses [lg:w-auto] differs from the
    final one in a single declaration: its width above the breakpoint while
    minimized is [auto], not a length.  Below the breakpoint, while
    expanded, and for every other property the two are the same. *)
Theorem NavBar_auto_listing :
  forall s : SidebarState,
    computed Narrow (NavBar_className_auto s)
    = computed Narrow (NavBar_className s)
    /\ computed Wide (NavBar_className_auto EXPANDED)
       = computed Wide (NavBar_className EXPANDED)
    /\ property Wide "width" (NavBar_className_auto MINIMIZED) = Some "auto"
    /\ property Wide "width" (NavBar_className MINIMIZED) = Some "5.5rem"
    /\ filter (fun d : Decl => negb (fst d =? "width"))
         (computed Wide (NavBar_className_auto s))
       = filter (fun d : Decl => negb (fst d =? "width"))
           (computed Wide (NavBar_className s)).
Proof.
  intros [|]; vm_compute; repeat split.
Qed.

(** X13: NavItem as it was before it took [isMinimized] lays out to the
    same boxes as the final NavItem of an expanded sidebar under both
    layouts, and as the final NavItem in either state below the
    breakpoint: the word [false] the template literal leaves in the class
    attribute styles nothing. *)
Theorem NavItem_stateless_listing :
  forall (t : option string) (i : option (Node Updater)),
    (forall mode : LayoutMode,
        layout mode (NavItem_stateless t i) = layout mode (NavItem t i EXPANDED))
    /\ (forall s : SidebarState,
          layout Narrow (NavItem_stateless t i)
          = layout Narrow (NavItem t i s)).
Proof.
  intros t i. split.
  - intros [|]; destruct t, i; vm_compute; reflexivity.
  - intros [|]; destruct t, i; vm_compute; reflexivity.
Qed.

(** *** A class added by a template literal *)










(** The class attributes of the components declare no property twice
    within a variant, but for [transition-duration], which [duration-200]
    sets after [transition] or [transition-[width]] in the class attribute
    as in the stylesheet. *)
Lemma component_classes_conflicts :
  forall s : SidebarState,
    conflicts (label_className s) = []
    /\ conflicts NavHeader_className = []
    /\ conflicts Layout_className = []
    /\ conflicts "flex flex-col overflow-y-auto" = []
    /\ conflicts "group flex-grow lg:flex-grow-0 flex flex-col lg:flex-row items-center p-4 cursor-pointer rounded-lg hover:bg-gray-600" = []
    /\ conflicts "flex justify-center items-center text-4xl text-gray-400 group-hover:text-gray-100" = []
    /\ conflicts (control_className s) = [ "transition-duration" ]
    /\ conflicts (NavBar_className s) = [ "transition-duration" ].
Proof.
  intros [|]; vm_compute; repeat split.
Qed.


